(** * The JWT bearer grant type of node-oauth2-server

    A shallow embedding of [lib/grant-types/jwt-bearer.js]: the constructor
    [JWTBearerGrantType] and the three methods [handle], [getUser] and
    [saveToken], over a small model of the JavaScript values they touch, of
    synchronous throws and of settled promises. *)

From Stdlib Require Import String List ZArith Bool Lia.
Import ListNotations.
Local Open Scope string_scope.

Local Set Warnings "-register-all".

(** ** JavaScript values *)

Module JS.

(** Host functions are named; what a name does when called is given by the
    environment of the grant type (see [Grant.call]). *)
Definition fid := string.

(** Numbers are kept to the integers and [NaN]: the code only ever tests a
    number for truthiness. *)
Inductive value : Type :=
| VUndefined
| VNull
| VBool (b : bool)
| VNum (n : Z)
| VNaN
| VStr (s : string)
| VFun (f : fid)
| VObj (props : list (string * value)).

(** [!v] is [negb (truthy v)]. *)
Definition truthy (v : value) : bool :=
  match v with
  | VUndefined | VNull | VNaN => false
  | VBool b => b
  | VNum n => negb (n =? 0)%Z
  | VStr s => negb (s =? "")
  | VFun _ | VObj _ => true
  end.

(** Own properties of an object literal, first binding wins. *)
Fixpoint lookup (p : string) (props : list (string * value)) : value :=
  match props with
  | [] => VUndefined
  | (k, v) :: rest => if k =? p then v else lookup p rest
  end.

(** What is thrown, or what a promise is rejected with. *)
(** Modelled from the spec: the error classes of [../errors/] are not among
    the sources. An error has its kind (section 7 of the spec) and carries the
    message it was built with. [TypeError] is the runtime's own error;
    [Raised] is any other value a collaborator throws or rejects with. *)
Inductive exn : Type :=
| InvalidArgumentError (message : value)
| InvalidGrantError (message : value)
| InvalidRequestError (message : value)
| TypeError (message : string)
| Raised (e : value).

Inductive res (A : Type) : Type :=
| Ok (a : A)
| Throw (e : exn).
Arguments Ok {A} a.
Arguments Throw {A} e.

(** A promise, looked at once it has settled. A plain value handed to
    [Promise.all] or returned from a [then] callback counts as [Resolved]. *)
Inductive promise (A : Type) : Type :=
| Resolved (a : A)
| Rejected (e : exn).
Arguments Resolved {A} a.
Arguments Rejected {A} e.

(** [v.p]: reading a property of [undefined] or [null] throws. Properties
    that primitives and functions inherit from their prototypes are not
    modelled; none of them is read by the grant type. *)
Definition get (v : value) (p : string) : res value :=
  match v with
  | VUndefined => Throw (TypeError ("Cannot read properties of undefined (reading '" ++ p ++ "')"))
  | VNull => Throw (TypeError ("Cannot read properties of null (reading '" ++ p ++ "')"))
  | VObj props => Ok (lookup p props)
  | _ => Ok VUndefined
  end.

(** [e.message] *)
Definition exn_message (e : exn) : res value :=
  match e with
  | InvalidArgumentError m | InvalidGrantError m | InvalidRequestError m => Ok m
  | TypeError m => Ok (VStr m)
  | Raised v => get v "message"
  end.

(** The error kinds the spec names. *)
Definition is_InvalidArgument (e : exn) : bool :=
  match e with InvalidArgumentError _ => true | _ => false end.
Definition is_InvalidGrant (e : exn) : bool :=
  match e with InvalidGrantError _ => true | _ => false end.
Definition is_InvalidRequest (e : exn) : bool :=
  match e with InvalidRequestError _ => true | _ => false end.
Definition spec_kind (e : exn) : bool :=
  is_InvalidArgument e || is_InvalidRequest e || is_InvalidGrant e.

(** [Promise.all] over settled promises: the values in array order, or a
    rejection. Which rejection wins when several promises reject depends on
    timing; the first in array order stands for it, and no statement below
    depends on the choice. *)
Fixpoint all (ps : list (promise value)) : promise (list value) :=
  match ps with
  | [] => Resolved []
  | Rejected e :: _ => Rejected e
  | Resolved v :: ps' =>
      match all ps' with
      | Resolved vs => Resolved (v :: vs)
      | Rejected e => Rejected e
      end
  end.

(** ** Calls the grant type makes, with what came back *)

Inductive event : Type :=
| EvGetScope (request : value) (r : res value)
| EvValidateScope (user client scope : value) (r : res (promise value))
| EvGenerateAccessToken (client user scope : value) (r : res (promise value))
| EvGenerateRefreshToken (client user scope : value) (r : res (promise value))
| EvGetAccessTokenExpiresAt (r : res (promise value))
| EvGetRefreshTokenExpiresAt (r : res (promise value))
| EvCall (f : fid) (args : list value) (r : promise value).

(** A call of a function of the host's model. *)
Definition is_model_call (ev : event) : bool :=
  match ev with EvCall _ _ _ => true | _ => false end.

(** The outcome of a method that returns a promise: the error it threw or
    rejected with, if any. *)
Definition failure {A} (r : res (promise A)) : option exn :=
  match r with
  | Throw e | Ok (Rejected e) => Some e
  | Ok (Resolved _) => None
  end.

Definition failed {A} (r : res (promise A)) : bool :=
  match failure r with Some _ => true | None => false end.

(** One of the five producers of [saveToken] threw or rejected. *)

Definition producer_failure (ev : event) : bool :=
  match ev with
  | EvValidateScope _ _ _ r
  | EvGenerateAccessToken _ _ _ r
  | EvGenerateRefreshToken _ _ _ r
  | EvGetAccessTokenExpiresAt r
  | EvGetRefreshTokenExpiresAt r => failed r
  | _ => false
  end.

End JS.

Import JS.

(** ** Synchronous computations over the collaborators' world *)

Module Eff.

Section Monad.
Context {W : Type}.

Record state : Type := State { world : W; trace : list event }.

Definition M (A : Type) : Type := state -> res A * state.

Definition ret {A} (a : A) : M A := fun s => (Ok a, s).

Definition throw {A} (e : exn) : M A := fun s => (Throw e, s).

Definition bind {A B} (c : M A) (k : A -> M B) : M B :=
  fun s =>
    match c s with
    | (Ok a, s') => k a s'
    | (Throw e, s') => (Throw e, s')
    end.

Definition lift {A} (r : res A) : M A := fun s => (r, s).

(** Run a collaborator on the world and log the call with its outcome. *)
Definition invoke {A} (ev : res A -> event) (f : W -> res A * W) : M A :=
  fun s =>
    let (r, w') := f (world s) in
    (r, State w' (trace s ++ [ev r])).

(** Run the missing base constructor on the world; it is no collaborator
    call of the grant and is not logged. *)
Definition on_world {A} (f : W -> res A * W) : M A :=
  fun s =>
    let (r, w') := f (world s) in
    (r, State w' (trace s)).

(** [p.then(f)]: a throw inside the callback rejects the resulting
    promise. *)
Definition then_ {A B} (p : promise A) (f : A -> M (promise B)) : M (promise B) :=
  match p with
  | Rejected e => ret (Rejected e)
  | Resolved a =>
      fun s =>
        match f a s with
        | (Ok q, s') => (Ok q, s')
        | (Throw e, s') => (Ok (Rejected e), s')
        end
  end.

(** [p.catch(f)] *)
Definition catch_ {A} (p : promise A) (f : exn -> M (promise A)) : M (promise A) :=
  match p with
  | Resolved a => ret (Resolved a)
  | Rejected e =>
      fun s =>
        match f e s with
        | (Ok q, s') => (Ok q, s')
        | (Throw e', s') => (Ok (Rejected e'), s')
        end
  end.
End Monad.

Arguments state W : clear implicits.
Arguments M W A : clear implicits.

End Eff.

Import Eff.

Declare Scope js_scope.
Delimit Scope js_scope with js.
Notation "x <- c ;; k" := (bind c (fun x => k))
  (at level 61, c at next level, right associativity) : js_scope.
Notation "'when' b 'throws' e ;; k" := (if b then throw e else k)
  (at level 61, b at next level, e at next level, right associativity) : js_scope.
Local Open Scope js_scope.

(** ** The grant type *)

Module Grant.

(** Modelled from the spec: [AbstractGrantType] (./abstract-grant-type) is not
    among the sources. Its constructor and the methods the JWT bearer grant
    inherits from it are taken as they are used: a constructor that may
    reject the options, [getScope] (the requested scope of a request), and
    the five producers of sections 4.3 and 4.4, each of which may throw,
    return a value, or return a promise. *)
Record AbstractGrantType (W : Type) : Type := {
  construct : value -> W -> res unit * W;
  getScope : value -> W -> res value * W;
  validateScope : value -> value -> value -> W -> res (promise value) * W;
  generateAccessToken : value -> value -> value -> W -> res (promise value) * W;
  generateRefreshToken : value -> value -> value -> W -> res (promise value) * W;
  getAccessTokenExpiresAt : W -> res (promise value) * W;
  getRefreshTokenExpiresAt : W -> res (promise value) * W
}.
Arguments construct {W} _ _ _.
Arguments getScope {W} _ _ _.
Arguments validateScope {W} _ _ _ _ _.
Arguments generateAccessToken {W} _ _ _ _ _.
Arguments generateRefreshToken {W} _ _ _ _ _.
Arguments getAccessTokenExpiresAt {W} _ _.
Arguments getRefreshTokenExpiresAt {W} _ _.

(** Modelled from the spec: the fields of an instance are set by the missing
    base constructor. Section 6 has the capabilities injected at construction
    time, so [this.model] is the [model] of the options. *)
Record instance : Type := { model : value }.

Section JWTBearer.
Context {W : Type}.
(** The inherited methods. *)
Variable base : AbstractGrantType W.
(** What the host's functions do when called: a settled promise
    ([promisify] turns a value, a thrown error, a callback result and a
    promise alike into a promise). *)
Variable call : fid -> list value -> W -> promise value * W.

Definition promisify (fn : value) (args : list value) : M W (promise value) :=
  match fn with
  | VFun f =>
      fun s =>
        let (p, w') := call f args (world s) in
        (Ok p, State w' (trace s ++ [EvCall f args p]))
  | _ => throw (TypeError "fn is not a function")
  end.

(** [function JWTBearerGrantType(options)] *)
Definition JWTBearerGrantType (options : value) : M W instance :=
  let options := if truthy options then options else VObj [] in
  model <- lift (get options "model") ;;
  when negb (truthy model)
    throws InvalidArgumentError (VStr "Missing parameter: `model`") ;;
  getUser <- lift (get model "getUser") ;;
  when negb (truthy getUser)
    throws InvalidArgumentError (VStr "Invalid argument: model does not implement `getUser()`") ;;
  saveToken <- lift (get model "saveToken") ;;
  when negb (truthy saveToken)
    throws InvalidArgumentError (VStr "Invalid argument: model does not implement `saveToken()`") ;;
  _ <- on_world (construct base options) ;;
  ret {| model := model |}.

(** [JWTBearerGrantType.prototype.getUser] *)
Definition getUser (this : instance) (request : value) : M W (promise value) :=
  body <- lift (get request "body") ;;
  assertion <- lift (get body "assertion") ;;
  when negb (truthy assertion)
    throws InvalidRequestError (VStr "Missing parameter: `assertion`") ;;
  getUserFromJWT <- lift (get (model this) "getUserFromJWT") ;;
  p <- promisify getUserFromJWT [assertion] ;;
  p <- then_ p (fun user =>
         when negb (truthy user)
           throws InvalidGrantError (VStr "Invalid grant: jwt is invalid") ;;
         ret (Resolved user)) ;;
  catch_ p (fun e =>
    message <- lift (exn_message e) ;;
    throw (InvalidGrantError message)).

(** The object literal built inside [saveToken]. *)
Definition token_record (accessToken accessTokenExpiresAt refreshToken
                         refreshTokenExpiresAt scope : value) : value :=
  VObj [ ("accessToken", accessToken);
         ("accessTokenExpiresAt", accessTokenExpiresAt);
         ("refreshToken", refreshToken);
         ("refreshTokenExpiresAt", refreshTokenExpiresAt);
         ("scope", scope) ].

(** [.spread(function(a, b, c, d, e) {...})]: the callback applied to the
    elements of the array; a missing element is [undefined]. *)
Definition spread {B} (f : value -> value -> value -> value -> value -> M W (promise B))
    (vs : list value) : M W (promise B) :=
  f (nth 0 vs VUndefined) (nth 1 vs VUndefined) (nth 2 vs VUndefined)
    (nth 3 vs VUndefined) (nth 4 vs VUndefined).

(** [JWTBearerGrantType.prototype.saveToken]. The five elements of [fns]
    are evaluated left to right; a producer that throws ends the method
    there, one that rejects does not. *)
Definition saveToken (this : instance) (user client scope : value) : M W (promise value) :=
  p1 <- invoke (EvValidateScope user client scope) (validateScope base user client scope) ;;
  p2 <- invoke (EvGenerateAccessToken client user scope) (generateAccessToken base client user scope) ;;
  p3 <- invoke (EvGenerateRefreshToken client user scope) (generateRefreshToken base client user scope) ;;
  p4 <- invoke EvGetAccessTokenExpiresAt (getAccessTokenExpiresAt base) ;;
  p5 <- invoke EvGetRefreshTokenExpiresAt (getRefreshTokenExpiresAt base) ;;
  let fns := [p1; p2; p3; p4; p5] in
  then_ (all fns)
    (spread (fun scope accessToken refreshToken accessTokenExpiresAt refreshTokenExpiresAt =>
       let token := token_record accessToken accessTokenExpiresAt refreshToken
                                 refreshTokenExpiresAt scope in
       saveToken <- lift (get (model this) "saveToken") ;;
       promisify saveToken [token; client; user])).

(** [JWTBearerGrantType.prototype.handle] *)
Definition handle (this : instance) (request client : value) : M W (promise value) :=
  when negb (truthy request)
    throws InvalidArgumentError (VStr "Missing parameter: `request`") ;;
  when negb (truthy client)
    throws InvalidArgumentError (VStr "Missing parameter: `client`") ;;
  scope <- invoke (EvGetScope request) (getScope base request) ;;
  p <- then_ (Resolved tt) (fun _ => getUser this request) ;;
  then_ p (fun user => saveToken this user client scope).

End JWTBearer.
End Grant.

Import Grant.

(** ** The end-to-end scenario of the spec (section 8) *)

Module Scenario.

(** The host's store: the tokens saved so far, latest first. *)
Definition W := list value.

Definition jwt := VStr "<valid-jwt>".
Definition client := VObj [("id", VStr "c1")].
Definition user := VObj [("id", VStr "u1")].
Definition T1 := VNum 1000.
Definition T2 := VNum 2000.

Definition request (scope : string) : value :=
  VObj [("body", VObj [("assertion", jwt); ("scope", VStr scope)])].

(** A request whose assertion the resolver knows nothing of. *)
Definition request_of (assertion : value) : value :=
  VObj [("body", VObj [("assertion", assertion)])].

(** The resolver knows one assertion, answers [null] to the assertion
    ["unknown"] and rejects every other one. *)
Definition call (f : fid) (args : list value) (w : W) : promise value * W :=
  match f, args with
  | "resolve", [VStr "<valid-jwt>"] => (Resolved user, w)
  | "resolve", [VStr "unknown"] => (Resolved VNull, w)
  | "resolve", _ => (Rejected (Raised (VObj [("message", VStr "jwt malformed")])), w)
  | "store", [token; _; _] => (Resolved token, token :: w)
  | _, _ => (Rejected (Raised VUndefined), w)
  end.

Definition model : value :=
  VObj [("getUser", VFun "resolve");
        ("getUserFromJWT", VFun "resolve");
        ("saveToken", VFun "store")].

(** A model written for the password grant: it passes the checks of the
    constructor and has no [getUserFromJWT]. *)
Definition password_model : value :=
  VObj [("getUser", VFun "resolve"); ("saveToken", VFun "store")].

Definition body_scope (request : value) : res value :=
  match get request "body" with
  | Ok body => get body "scope"
  | Throw e => Throw e
  end.

(** The inherited methods, with the scope validator and the refresh-token
    generator left open. *)
Definition base_with (validate : value -> res (promise value))
    (refresh : res (promise value)) : AbstractGrantType W :=
  {| construct := fun _ w => (Ok tt, w);
     getScope := fun request w => (body_scope request, w);
     validateScope := fun _ _ scope w => (validate scope, w);
     generateAccessToken := fun _ _ _ w => (Ok (Resolved (VStr "tok_A")), w);
     generateRefreshToken := fun _ _ _ w => (refresh, w);
     getAccessTokenExpiresAt := fun w => (Ok (Resolved T1), w);
     getRefreshTokenExpiresAt := fun w => (Ok (Resolved T2), w) |}.

(** The scope validator echoes the requested scope. *)
Definition base : AbstractGrantType W :=
  base_with (fun scope => Ok (Resolved scope)) (Ok (Resolved (VStr "tok_R"))).

(** The scope validator narrows every request to ["read"]. *)
Definition narrowing : AbstractGrantType W :=
  base_with (fun _ => Ok (Resolved (VStr "read"))) (Ok (Resolved (VStr "tok_R"))).

Definition out_of_entropy : exn :=
  Raised (VObj [("message", VStr "out of entropy")]).

(** The refresh-token generator rejects. *)
Definition no_refresh : AbstractGrantType W :=
  base_with (fun scope => Ok (Resolved scope)) (Ok (Rejected out_of_entropy)).

Definition this : instance := {| Grant.model := model |}.

Definition s0 : state W := State [] [].

(** The token of the scenario, and the calls of a grant of it for a
    requested scope: [scope] is what the validator is asked, ["read"] what it
    answers. *)
Definition token : value :=
  token_record (VStr "tok_A") T1 (VStr "tok_R") T2 (VStr "read").

Definition produced (scope : string) (refresh : res (promise value)) : list event :=
  [ EvValidateScope user client (VStr scope) (Ok (Resolved (VStr "read")));
    EvGenerateAccessToken client user (VStr scope) (Ok (Resolved (VStr "tok_A")));
    EvGenerateRefreshToken client user (VStr scope) refresh;
    EvGetAccessTokenExpiresAt (Ok (Resolved T1));
    EvGetRefreshTokenExpiresAt (Ok (Resolved T2)) ].

Definition granted (scope : string) : list event :=
  [ EvGetScope (request scope) (Ok (VStr scope));
    EvCall "resolve" [jwt] (Resolved user) ]
  ++ produced scope (Ok (Resolved (VStr "tok_R")))
  ++ [ EvCall "store" [token; client; user] (Resolved token) ].

End Scenario.

(** ** Reading a trace *)

Module Obs.

(** What one of the five producers of [saveToken] came back with. *)
Definition producer_outcome (ev : event) : option (res (promise value)) :=
  match ev with
  | EvValidateScope _ _ _ r
  | EvGenerateAccessToken _ _ _ r
  | EvGenerateRefreshToken _ _ _ r
  | EvGetAccessTokenExpiresAt r
  | EvGetRefreshTokenExpiresAt r => Some r
  | _ => None
  end.

Definition is_producer (ev : event) : bool :=
  match producer_outcome ev with Some _ => true | None => false end.

(** The error of a producer that threw while it was being called. *)
Definition producer_threw (ev : event) : option exn :=
  match producer_outcome ev with
  | Some (Throw e) => Some e
  | _ => None
  end.

(** The error of a producer that threw or rejected. *)
Definition producer_error (ev : event) : option exn :=
  match producer_outcome ev with
  | Some r => failure r
  | None => None
  end.

(** [options || {}] *)
Definition or_empty (options : value) : value :=
  if truthy options then options else VObj [].

End Obs.

Import Obs.

(** ** Further hosts for the scenario *)

Module Cases.

Definition invalid_scope : exn :=
  Raised (VObj [("name", VStr "invalid_scope");
                ("message", VStr "Invalid scope: Requested scope is invalid")]).

(** The scope validator throws while it is called. *)
Definition throwing_validator : AbstractGrantType Scenario.W :=
  Scenario.base_with (fun _ => Throw invalid_scope) (Ok (Resolved (VStr "tok_R"))).

(** The scope validator returns a promise that rejects. *)
Definition rejecting_validator : AbstractGrantType Scenario.W :=
  Scenario.base_with (fun _ => Ok (Rejected invalid_scope)) (Ok (Resolved (VStr "tok_R"))).

(** A base constructor that insists on an access-token lifetime. *)
Definition strict : AbstractGrantType Scenario.W :=
  {| construct := fun options w =>
       match get options "accessTokenLifetime" with
       | Ok v =>
           if truthy v then (Ok tt, w)
           else (Throw (InvalidArgumentError
                          (VStr "Missing parameter: `accessTokenLifetime`")), w)
       | Throw e => (Throw e, w)
       end;
     getScope := getScope Scenario.base;
     validateScope := validateScope Scenario.base;
     generateAccessToken := generateAccessToken Scenario.base;
     generateRefreshToken := generateRefreshToken Scenario.base;
     getAccessTokenExpiresAt := getAccessTokenExpiresAt Scenario.base;
     getRefreshTokenExpiresAt := getRefreshTokenExpiresAt Scenario.base |}.

(** A host whose resolver rejects with [undefined]: ["void"] is no function
    [Scenario.call] knows. *)
Definition void_resolver : instance :=
  {| model := VObj [("getUser", VFun "void");
                    ("getUserFromJWT", VFun "void");
                    ("saveToken", VFun "store")] |}.

(** A host whose store rejects with [undefined]. *)
Definition void_store : instance :=
  {| model := VObj [("getUser", VFun "resolve");
                    ("getUserFromJWT", VFun "resolve");
                    ("saveToken", VFun "void")] |}.

(** A resolver that answers [user] whatever the assertion. *)
Definition answering (user : value) (f : fid) (args : list value) (w : Scenario.W)
  : promise value * Scenario.W :=
  (Resolved user, w).

(** The calls of a grant that the scope validator refuses by rejecting. *)
Definition refused (scope : string) : list event :=
  [ EvGetScope (Scenario.request scope) (Ok (VStr scope));
    EvCall "resolve" [Scenario.jwt] (Resolved Scenario.user);
    EvValidateScope Scenario.user Scenario.client (VStr scope)
                    (Ok (Rejected invalid_scope));
    EvGenerateAccessToken Scenario.client Scenario.user (VStr scope)
                          (Ok (Resolved (VStr "tok_A")));
    EvGenerateRefreshToken Scenario.client Scenario.user (VStr scope)
                           (Ok (Resolved (VStr "tok_R")));
    EvGetAccessTokenExpiresAt (Ok (Resolved Scenario.T1));
    EvGetRefreshTokenExpiresAt (Ok (Resolved Scenario.T2)) ].

End Cases.

(** ** Case analysis on collaborators *)

(** Splits on the outcome of the next call or property read the goal waits
    for. *)
Ltac next_outcome :=
  match goal with
  | |- context [validateScope ?b ?u ?c ?sc ?w] =>
      destruct (validateScope b u c sc w) as [[[? | ?] | ?] ?] eqn:?
  | |- context [generateAccessToken ?b ?c ?u ?sc ?w] =>
      destruct (generateAccessToken b c u sc w) as [[[? | ?] | ?] ?] eqn:?
  | |- context [generateRefreshToken ?b ?c ?u ?sc ?w] =>
      destruct (generateRefreshToken b c u sc w) as [[[? | ?] | ?] ?] eqn:?
  | |- context [getAccessTokenExpiresAt ?b ?w] =>
      destruct (getAccessTokenExpiresAt b w) as [[[? | ?] | ?] ?] eqn:?
  | |- context [getRefreshTokenExpiresAt ?b ?w] =>
      destruct (getRefreshTokenExpiresAt b w) as [[[? | ?] | ?] ?] eqn:?
  | |- context [getScope ?b ?r ?w] =>
      destruct (getScope b r w) as [[? | ?] ?] eqn:?
  | |- context [get ?v ?p] =>
      destruct (get v p) as [? | ?] eqn:?
  | |- context [truthy ?v] =>
      destruct (truthy v) eqn:?
  | |- context [promisify _ ?fn _] =>
      is_var fn; destruct fn; unfold promisify, throw
  | |- context [let (_, _) := ?call ?f ?args ?w in _] =>
      is_var call; destruct (call f args w) as [[? | ?] ?] eqn:?
  end; cbn in *.

(** ** Properties of [getUser] *)

Section GetUser.
Context {W : Type}.
Variable call : fid -> list value -> W -> promise value * W.

Lemma promisify_function f args s p w' :
  call f args (world s) = (p, w') ->
  promisify call (VFun f) args s = (Ok p, State w' (trace s ++ [EvCall f args p])).
Proof.
  intros Hc. unfold promisify. now rewrite Hc.
Qed.

(** What [getUser] does once the assertion is there and the model has a
    resolver: one call, then the two callbacks. *)
Lemma getUser_calls_resolver this request body assertion f p w' s :
  get request "body" = Ok body ->
  get body "assertion" = Ok assertion ->
  truthy assertion = true ->
  get (model this) "getUserFromJWT" = Ok (VFun f) ->
  call f [assertion] (world s) = (p, w') ->
  getUser call this request s =
    ( Ok match p with
         | Resolved user =>
             if truthy user then Resolved user
             else Rejected (InvalidGrantError (VStr "Invalid grant: jwt is invalid"))
         | Rejected e =>
             match exn_message e with
             | Ok m => Rejected (InvalidGrantError m)
             | Throw e' => Rejected e'
             end
         end,
      State w' (trace s ++ [EvCall f [assertion] p]) ).
Proof.
  intros Hb Ha Ht Hm Hc.
  unfold getUser, bind, lift. rewrite Hb, Ha, Ht, Hm. cbn [negb].
  rewrite (promisify_function _ _ _ _ _ Hc).
  destruct p as [user | e]; cbn.
  - destruct (truthy user); reflexivity.
  - unfold bind, lift, throw. destruct (exn_message e); reflexivity.
Qed.

(** A resolved [getUser] has called the resolver once, with the assertion
    of the request, and hands on the truthy user it returned. *)
Lemma getUser_resolved_inv this request s user s' :
  getUser call this request s = (Ok (Resolved user), s') ->
  exists body assertion f w',
    get request "body" = Ok body
    /\ get body "assertion" = Ok assertion
    /\ truthy assertion = true
    /\ get (model this) "getUserFromJWT" = Ok (VFun f)
    /\ call f [assertion] (world s) = (Resolved user, w')
    /\ truthy user = true
    /\ s' = State w' (trace s ++ [EvCall f [assertion] (Resolved user)]).
Proof.
  intros H.
  destruct (get request "body") as [body | e] eqn:Hb;
    [| unfold getUser, bind, lift in H; now rewrite Hb in H].
  destruct (get body "assertion") as [assertion | e] eqn:Ha;
    [| unfold getUser, bind, lift in H; now rewrite Hb, Ha in H].
  destruct (truthy assertion) eqn:Ht;
    [| unfold getUser, bind, lift in H; now rewrite Hb, Ha, Ht in H].
  destruct (get (model this) "getUserFromJWT") as [fn | e] eqn:Hm;
    [| unfold getUser, bind, lift in H; now rewrite Hb, Ha, Ht, Hm in H].
  destruct fn as [ | | | | | | f | ];
    try (unfold getUser, bind, lift in H; now rewrite Hb, Ha, Ht, Hm in H).
  destruct (call f [assertion] (world s)) as [p w'] eqn:Hc.
  rewrite (getUser_calls_resolver _ _ _ _ _ _ _ _ Hb Ha Ht Hm Hc) in H.
  exists body, assertion, f, w'.
  destruct p as [u | e].
  - destruct (truthy u) eqn:Hu; [| discriminate].
    injection H as -> <-. now repeat split.
  - destruct (exn_message e); discriminate.
Qed.

(** C5 (as amended): for every request that carries a body whose
    assertion is empty or absent (falsy), [getUser] throws
    [InvalidRequestError] with the message of the source, the name of the
    parameter between backquotes, and leaves the state as it was: the
    identity resolver is not invoked, nor is anything else. *)
Theorem getUser_missing_assertion this request body assertion s :
  get request "body" = Ok body ->
  get body "assertion" = Ok assertion ->
  truthy assertion = false ->
  getUser call this request s =
    (Throw (InvalidRequestError (VStr "Missing parameter: `assertion`")), s).
Proof.
  intros Hb Ha Ht. unfold getUser, bind, lift.
  now rewrite Hb, Ha, Ht.
Qed.

(** C6: for every request with a non-empty assertion, when the identity
    resolver fails with an error [e] whose message is [M], [getUser] gives
    a promise rejected with [InvalidGrantError M], whatever the kind of
    [e]; the resolver was called once. *)
Theorem getUser_resolver_error this request body assertion f e M w' s :
  get request "body" = Ok body ->
  get body "assertion" = Ok assertion ->
  truthy assertion = true ->
  get (model this) "getUserFromJWT" = Ok (VFun f) ->
  call f [assertion] (world s) = (Rejected e, w') ->
  exn_message e = Ok M ->
  getUser call this request s =
    ( Ok (Rejected (InvalidGrantError M)),
      State w' (trace s ++ [EvCall f [assertion] (Rejected e)]) ).
Proof.
  intros Hb Ha Ht Hm Hc HM.
  rewrite (getUser_calls_resolver _ _ _ _ _ _ _ _ Hb Ha Ht Hm Hc).
  now rewrite HM.
Qed.

(** C7: for every request with a non-empty assertion, when the identity
    resolver completes and returns no user, [getUser] gives a promise
    rejected with [InvalidGrantError "Invalid grant: jwt is invalid"]: the
    error thrown in the [then] callback goes through the [catch] callback,
    which keeps its message. *)
Theorem getUser_no_user this request body assertion f user w' s :
  get request "body" = Ok body ->
  get body "assertion" = Ok assertion ->
  truthy assertion = true ->
  get (model this) "getUserFromJWT" = Ok (VFun f) ->
  call f [assertion] (world s) = (Resolved user, w') ->
  truthy user = false ->
  getUser call this request s =
    ( Ok (Rejected (InvalidGrantError (VStr "Invalid grant: jwt is invalid"))),
      State w' (trace s ++ [EvCall f [assertion] (Resolved user)]) ).
Proof.
  intros Hb Ha Ht Hm Hc Hu.
  rewrite (getUser_calls_resolver _ _ _ _ _ _ _ _ Hb Ha Ht Hm Hc).
  now rewrite Hu.
Qed.

(** C9: [null], [undefined], [false], [0] and the empty string are all
    falsy, and for every request with a non-empty assertion the value [user]
    the resolver returns is either falsy, and [getUser] rejects with the same
    [InvalidGrantError] for each such value, or truthy, and [getUser]
    resolves with [user] itself. So [getUser] resolves only with a truthy
    user, the one the resolver returned. *)
Theorem getUser_falsy_user this request body assertion f user w' s :
  get request "body" = Ok body ->
  get body "assertion" = Ok assertion ->
  truthy assertion = true ->
  get (model this) "getUserFromJWT" = Ok (VFun f) ->
  call f [assertion] (world s) = (Resolved user, w') ->
  Forall (fun v => truthy v = false)
         [VNull; VUndefined; VBool false; VNum 0; VStr ""]
  /\ fst (getUser call this request s) =
       Ok (if truthy user then Resolved user
           else Rejected (InvalidGrantError (VStr "Invalid grant: jwt is invalid")))
  /\ (forall u, fst (getUser call this request s) = Ok (Resolved u) ->
                u = user /\ truthy user = true).
Proof.
  intros Hb Ha Ht Hm Hc.
  rewrite (getUser_calls_resolver _ _ _ _ _ _ _ _ Hb Ha Ht Hm Hc). cbn [fst].
  split; [repeat constructor | split; [reflexivity |]].
  intros u. destruct (truthy user); [| discriminate].
  intros [= ->]. now split.
Qed.

(** C10: for every present request whose [body] is absent, [getUser]
    throws the runtime's [TypeError] on reading [request.body.assertion]:
    an error of none of the kinds the spec names, raised before anything
    is invoked. *)
Theorem getUser_missing_body this request body s :
  truthy request = true ->
  get request "body" = Ok body ->
  body = VUndefined \/ body = VNull ->
  exists m,
    getUser call this request s = (Throw (TypeError m), s)
    /\ spec_kind (TypeError m) = false.
Proof.
  intros _ Hb Habs. unfold getUser, bind, lift. rewrite Hb.
  destruct Habs as [-> | ->]; cbn; eexists; split; reflexivity.
Qed.

End GetUser.

(** *** The same at concrete requests *)

Lemma getUser_missing_assertion_witness :
  getUser Scenario.call Scenario.this (Scenario.request_of (VStr "")) Scenario.s0 =
    (Throw (InvalidRequestError (VStr "Missing parameter: `assertion`")), Scenario.s0).
Proof.
  apply (getUser_missing_assertion Scenario.call Scenario.this
           (Scenario.request_of (VStr "")) (VObj [("assertion", VStr "")]) (VStr ""));
    reflexivity.
Defined.

(** C5 as stated fails twice. With a body that has no assertion the message
    is not the one of the claim, which has no backquotes; with no body at
    all the error is not an [InvalidRequestError]. *)
Lemma getUser_missing_assertion_counterexample :
  fst (getUser Scenario.call Scenario.this (VObj [("body", VObj [])]) Scenario.s0)
    <> Throw (InvalidRequestError (VStr "Missing parameter: assertion"))
  /\ option_map is_InvalidRequest
       (failure (fst (getUser Scenario.call Scenario.this (VObj []) Scenario.s0)))
     = Some false.
Proof.
  split; [discriminate | reflexivity].
Qed.

Lemma getUser_resolver_error_witness :
  getUser Scenario.call Scenario.this (Scenario.request_of (VStr "bad")) Scenario.s0 =
    ( Ok (Rejected (InvalidGrantError (VStr "jwt malformed"))),
      State []
        [EvCall "resolve" [VStr "bad"]
           (Rejected (Raised (VObj [("message", VStr "jwt malformed")])))] ).
Proof.
  apply (getUser_resolver_error Scenario.call Scenario.this
           (Scenario.request_of (VStr "bad")) (VObj [("assertion", VStr "bad")])
           (VStr "bad") "resolve"
           (Raised (VObj [("message", VStr "jwt malformed")]))
           (VStr "jwt malformed") [] Scenario.s0);
    reflexivity.
Defined.

Lemma getUser_no_user_witness :
  getUser Scenario.call Scenario.this (Scenario.request_of (VStr "unknown")) Scenario.s0 =
    ( Ok (Rejected (InvalidGrantError (VStr "Invalid grant: jwt is invalid"))),
      State [] [EvCall "resolve" [VStr "unknown"] (Resolved VNull)] ).
Proof.
  apply (getUser_no_user Scenario.call Scenario.this
           (Scenario.request_of (VStr "unknown")) (VObj [("assertion", VStr "unknown")])
           (VStr "unknown") "resolve" VNull [] Scenario.s0);
    reflexivity.
Defined.

Lemma getUser_falsy_user_witness :
  Forall
    (fun user =>
       fst (getUser (Cases.answering user) Scenario.this (Scenario.request "read")
                    Scenario.s0) =
         Ok (Rejected (InvalidGrantError (VStr "Invalid grant: jwt is invalid"))))
    [VNull; VUndefined; VBool false; VNum 0; VStr ""]
  /\ fst (getUser (Cases.answering Scenario.user) Scenario.this (Scenario.request "read")
                  Scenario.s0) =
       Ok (Resolved Scenario.user).
Proof.
  split; [repeat constructor |].
  all: match goal with
       | |- fst (getUser (Cases.answering ?user) _ _ _) = _ =>
           apply (getUser_falsy_user (Cases.answering user) Scenario.this
                    (Scenario.request "read")
                    (VObj [("assertion", Scenario.jwt); ("scope", VStr "read")])
                    Scenario.jwt "resolve" user [] Scenario.s0);
           reflexivity
       end.
Defined.

Lemma getUser_missing_body_witness :
  exists m,
    getUser Scenario.call Scenario.this (VObj []) Scenario.s0 = (Throw (TypeError m), Scenario.s0)
    /\ spec_kind (TypeError m) = false.
Proof.
  apply (getUser_missing_body Scenario.call Scenario.this (VObj []) VUndefined Scenario.s0);
    [reflexivity | reflexivity | now left].
Defined.

(** ** Properties of [saveToken] and [handle] *)

Section Handle.
Context {W : Type}.
Variable base : AbstractGrantType W.
Variable call : fid -> list value -> W -> promise value * W.

(** The calls of a successful [saveToken], in the order they are made. *)
Lemma saveToken_resolved this user client scope s
      S A R Ea Er w1 w2 w3 w4 w5 g p w6 :
  validateScope base user client scope (world s) = (Ok (Resolved S), w1) ->
  generateAccessToken base client user scope w1 = (Ok (Resolved A), w2) ->
  generateRefreshToken base client user scope w2 = (Ok (Resolved R), w3) ->
  getAccessTokenExpiresAt base w3 = (Ok (Resolved Ea), w4) ->
  getRefreshTokenExpiresAt base w4 = (Ok (Resolved Er), w5) ->
  get (model this) "saveToken" = Ok (VFun g) ->
  call g [token_record A Ea R Er S; client; user] w5 = (p, w6) ->
  saveToken base call this user client scope s =
    ( Ok p,
      State w6
        (trace s ++
         [ EvValidateScope user client scope (Ok (Resolved S));
           EvGenerateAccessToken client user scope (Ok (Resolved A));
           EvGenerateRefreshToken client user scope (Ok (Resolved R));
           EvGetAccessTokenExpiresAt (Ok (Resolved Ea));
           EvGetRefreshTokenExpiresAt (Ok (Resolved Er));
           EvCall g [token_record A Ea R Er S; client; user] p ]) ).
Proof.
  intros H1 H2 H3 H4 H5 Hg Hc.
  unfold saveToken, bind, invoke, lift; cbn.
  rewrite H1; cbn. rewrite H2; cbn. rewrite H3; cbn.
  rewrite H4; cbn. rewrite H5; cbn.
  rewrite Hg; cbn. rewrite Hc; cbn.
  now rewrite <- !app_assoc.
Qed.

(** Conversely, a resolved [saveToken] has made exactly these six
    calls. *)
Lemma saveToken_resolved_inv this user client scope s v s' :
  saveToken base call this user client scope s = (Ok (Resolved v), s') ->
  exists S A R Ea Er g w',
    s' = State w'
           (trace s ++
            [ EvValidateScope user client scope (Ok (Resolved S));
              EvGenerateAccessToken client user scope (Ok (Resolved A));
              EvGenerateRefreshToken client user scope (Ok (Resolved R));
              EvGetAccessTokenExpiresAt (Ok (Resolved Ea));
              EvGetRefreshTokenExpiresAt (Ok (Resolved Er));
              EvCall g [token_record A Ea R Er S; client; user] (Resolved v) ]).
Proof.
  unfold saveToken, bind, invoke, lift, spread, then_, throw, ret; cbn.
  repeat next_outcome; try discriminate.
  intros [= <- <-]. rewrite <- !app_assoc. cbn.
  now repeat eexists.
Qed.

(** C1: when the resolver returns the user [U], the scope validator
    returns [S], the generators return [A] and [R], the expiry policy
    returns [Ea] and [Er] and the store returns [v], the grant succeeds:
    [handle] resolves with [v], the value the store returned, and the
    calls made are the eight listed, the last and only call of the store
    being [saveToken(token, client, U)] with
    [token = {accessToken: A, accessTokenExpiresAt: Ea, refreshToken: R,
    refreshTokenExpiresAt: Er, scope: S}]. *)
Theorem handle_persists_assembled_token this request client s
      sc body assertion f U S A R Ea Er g v w1 w2 w3 w4 w5 w6 w7 w8 :
  truthy request = true ->
  truthy client = true ->
  getScope base request (world s) = (Ok sc, w1) ->
  get request "body" = Ok body ->
  get body "assertion" = Ok assertion ->
  truthy assertion = true ->
  get (model this) "getUserFromJWT" = Ok (VFun f) ->
  call f [assertion] w1 = (Resolved U, w2) ->
  truthy U = true ->
  validateScope base U client sc w2 = (Ok (Resolved S), w3) ->
  generateAccessToken base client U sc w3 = (Ok (Resolved A), w4) ->
  generateRefreshToken base client U sc w4 = (Ok (Resolved R), w5) ->
  getAccessTokenExpiresAt base w5 = (Ok (Resolved Ea), w6) ->
  getRefreshTokenExpiresAt base w6 = (Ok (Resolved Er), w7) ->
  get (model this) "saveToken" = Ok (VFun g) ->
  call g [token_record A Ea R Er S; client; U] w7 = (Resolved v, w8) ->
  handle base call this request client s =
    ( Ok (Resolved v),
      State w8
        (trace s ++
         [ EvGetScope request (Ok sc);
           EvCall f [assertion] (Resolved U);
           EvValidateScope U client sc (Ok (Resolved S));
           EvGenerateAccessToken client U sc (Ok (Resolved A));
           EvGenerateRefreshToken client U sc (Ok (Resolved R));
           EvGetAccessTokenExpiresAt (Ok (Resolved Ea));
           EvGetRefreshTokenExpiresAt (Ok (Resolved Er));
           EvCall g [ VObj [ ("accessToken", A);
                             ("accessTokenExpiresAt", Ea);
                             ("refreshToken", R);
                             ("refreshTokenExpiresAt", Er);
                             ("scope", S) ];
                      client; U ] (Resolved v) ]) ).
Proof.
  intros Hr Hcl Hsc Hb Ha Ht Hm Hres HU H1 H2 H3 H4 H5 Hg Hst.
  unfold handle, bind, invoke. rewrite Hr, Hcl. cbn -[getUser saveToken].
  rewrite Hsc.
  set (s1 := State w1 (trace s ++ [EvGetScope request (Ok sc)])).
  assert (Hu : getUser call this request s1 =
               (Ok (Resolved U), State w2 (trace s1 ++ [EvCall f [assertion] (Resolved U)]))).
  { rewrite (getUser_calls_resolver call this request body assertion f (Resolved U) w2 s1
               Hb Ha Ht Hm Hres).
    now rewrite HU. }
  rewrite Hu. cbn [then_].
  rewrite (saveToken_resolved this U client sc
             (State w2 (trace s1 ++ [EvCall f [assertion] (Resolved U)]))
             S A R Ea Er w3 w4 w5 w6 w7 g (Resolved v) w8
             H1 H2 H3 H4 H5 Hg Hst).
  cbn. now rewrite <- !app_assoc.
Qed.

(** C2: in every run of [saveToken(user, client, scope)], if one of the
    five producers called in it threw or rejected, then [saveToken] itself
    throws or rejects and no function of the model, [model.saveToken]
    included, was called in that run. *)
Theorem saveToken_producer_failure this user client scope s r s' (evs : list event) :
  saveToken base call this user client scope s = (r, s') ->
  trace s' = (trace s ++ evs)%list ->
  existsb producer_failure evs = true ->
  failed r = true /\ existsb is_model_call evs = false.
Proof.
  intros Hrun Htr Hfail. revert Hrun.
  unfold saveToken, bind, invoke, lift, spread, then_, throw, ret; cbn.
  repeat next_outcome.
  all: intros [= <- <-]; cbn in Htr; rewrite <- ?app_assoc in Htr;
    apply app_inv_head in Htr; subst evs; cbn in *.
  all: try discriminate.
  all: split; reflexivity.
Qed.

(** C4: when [request] or [client] is absent (falsy), [handle] throws an
    [InvalidArgumentError] and leaves the state as it was: nothing was
    called, neither [getScope] nor any collaborator. *)
Theorem handle_missing_argument this request client s :
  truthy request = false \/ truthy client = false ->
  exists m,
    handle base call this request client s = (Throw (InvalidArgumentError m), s).
Proof.
  unfold handle. intros [Hr | Hc].
  - rewrite Hr. now eexists.
  - destruct (truthy request); rewrite ?Hc; now eexists.
Qed.

(** The calls of a grant that succeeds, in the order they are made. *)
Lemma handle_resolved_inv this request client s v s' :
  handle base call this request client s = (Ok (Resolved v), s') ->
  exists sc assertion f U S A R Ea Er g,
    trace s' =
      (trace s ++
       [ EvGetScope request (Ok sc);
         EvCall f [assertion] (Resolved U);
         EvValidateScope U client sc (Ok (Resolved S));
         EvGenerateAccessToken client U sc (Ok (Resolved A));
         EvGenerateRefreshToken client U sc (Ok (Resolved R));
         EvGetAccessTokenExpiresAt (Ok (Resolved Ea));
         EvGetRefreshTokenExpiresAt (Ok (Resolved Er));
         EvCall g [token_record A Ea R Er S; client; U] (Resolved v) ])%list
    /\ get (token_record A Ea R Er S) "scope" = Ok S.
Proof.
  unfold handle, bind, invoke.
  destruct (truthy request); [| discriminate].
  destruct (truthy client); [| discriminate]. cbn -[getUser saveToken].
  destruct (getScope base request (world s)) as [[sc | e] w1]; [| discriminate].
  set (s1 := State w1 (trace s ++ [EvGetScope request (Ok sc)])).
  cbn -[getUser saveToken].
  destruct (getUser call this request s1) as [[[U | e] | e] s2] eqn:Hu;
    cbn -[saveToken]; try discriminate.
  apply getUser_resolved_inv in Hu
    as (body & assertion & f & w2 & _ & _ & _ & _ & _ & _ & ->).
  destruct (saveToken base call this U client sc _) as [[[v' | e] | e] s3] eqn:Hs;
    try discriminate.
  apply saveToken_resolved_inv in Hs as (S & A & R & Ea & Er & g & w' & ->).
  intros [= <- <-]. exists sc, assertion, f, U, S, A, R, Ea, Er, g.
  split; [| reflexivity]. cbn. now rewrite <- !app_assoc.
Qed.

End Handle.

(** *** The same at concrete runs *)

(** The end-to-end scenario of section 8 of the spec: the store receives
    [{accessToken: "tok_A", accessTokenExpiresAt: T1, refreshToken: "tok_R",
    refreshTokenExpiresAt: T2, scope: "read"}] and the caller gets what the
    store returned. *)
Lemma handle_persists_assembled_token_witness :
  handle Scenario.base Scenario.call Scenario.this (Scenario.request "read")
         Scenario.client Scenario.s0 =
    ( Ok (Resolved Scenario.token),
      State [Scenario.token]
        [ EvGetScope (Scenario.request "read") (Ok (VStr "read"));
          EvCall "resolve" [Scenario.jwt] (Resolved Scenario.user);
          EvValidateScope Scenario.user Scenario.client (VStr "read")
                          (Ok (Resolved (VStr "read")));
          EvGenerateAccessToken Scenario.client Scenario.user (VStr "read")
                                (Ok (Resolved (VStr "tok_A")));
          EvGenerateRefreshToken Scenario.client Scenario.user (VStr "read")
                                 (Ok (Resolved (VStr "tok_R")));
          EvGetAccessTokenExpiresAt (Ok (Resolved Scenario.T1));
          EvGetRefreshTokenExpiresAt (Ok (Resolved Scenario.T2));
          EvCall "store"
            [ VObj [ ("accessToken", VStr "tok_A");
                     ("accessTokenExpiresAt", Scenario.T1);
                     ("refreshToken", VStr "tok_R");
                     ("refreshTokenExpiresAt", Scenario.T2);
                     ("scope", VStr "read") ];
              Scenario.client; Scenario.user ]
            (Resolved Scenario.token) ] ).
Proof.
  apply (handle_persists_assembled_token Scenario.base Scenario.call Scenario.this
           (Scenario.request "read") Scenario.client Scenario.s0
           (VStr "read")
           (VObj [("assertion", Scenario.jwt); ("scope", VStr "read")])
           Scenario.jwt "resolve" Scenario.user
           (VStr "read") (VStr "tok_A") (VStr "tok_R") Scenario.T1 Scenario.T2 "store"
           Scenario.token [] [] [] [] [] [] [] [Scenario.token]);
    reflexivity.
Defined.

(** The refresh-token generator rejects: the two expiries are still asked
    for, [saveToken] rejects, the store is left empty. *)
Example saveToken_rejected_refresh :
  saveToken Scenario.no_refresh Scenario.call Scenario.this
            Scenario.user Scenario.client (VStr "read") Scenario.s0 =
    ( Ok (Rejected Scenario.out_of_entropy),
      State [] (Scenario.produced "read" (Ok (Rejected Scenario.out_of_entropy))) ).
Proof. reflexivity. Qed.

Lemma saveToken_producer_failure_witness :
  failed (A := value) (Ok (Rejected Scenario.out_of_entropy)) = true
  /\ existsb is_model_call
       (Scenario.produced "read" (Ok (Rejected Scenario.out_of_entropy))) = false.
Proof.
  apply (saveToken_producer_failure Scenario.no_refresh Scenario.call Scenario.this
           Scenario.user Scenario.client (VStr "read") Scenario.s0
           (Ok (Rejected Scenario.out_of_entropy))
           (State [] (Scenario.produced "read" (Ok (Rejected Scenario.out_of_entropy)))));
    reflexivity.
Defined.

Lemma handle_missing_argument_witness :
  exists m,
    handle Scenario.base Scenario.call Scenario.this (Scenario.request "read") VNull
           Scenario.s0 = (Throw (InvalidArgumentError m), Scenario.s0).
Proof.
  apply (handle_missing_argument Scenario.base Scenario.call Scenario.this
           (Scenario.request "read") VNull Scenario.s0).
  right. reflexivity.
Defined.

(** A request for ["read write"] that the validator narrows to ["read"]:
    the generators are called with ["read write"], the token stored has
    ["read"]. *)
Example handle_narrowed_scope :
  handle Scenario.narrowing Scenario.call Scenario.this (Scenario.request "read write")
         Scenario.client Scenario.s0 =
    ( Ok (Resolved Scenario.token),
      State [Scenario.token]
        [ EvGetScope (Scenario.request "read write") (Ok (VStr "read write"));
          EvCall "resolve" [Scenario.jwt] (Resolved Scenario.user);
          EvValidateScope Scenario.user Scenario.client (VStr "read write")
                          (Ok (Resolved (VStr "read")));
          EvGenerateAccessToken Scenario.client Scenario.user (VStr "read write")
                                (Ok (Resolved (VStr "tok_A")));
          EvGenerateRefreshToken Scenario.client Scenario.user (VStr "read write")
                                 (Ok (Resolved (VStr "tok_R")));
          EvGetAccessTokenExpiresAt (Ok (Resolved Scenario.T1));
          EvGetRefreshTokenExpiresAt (Ok (Resolved Scenario.T2));
          EvCall "store"
            [ token_record (VStr "tok_A") Scenario.T1 (VStr "tok_R") Scenario.T2 (VStr "read");
              Scenario.client; Scenario.user ]
            (Resolved Scenario.token) ] ).
Proof. reflexivity. Qed.

(** ** The constructor *)

Section Construct.
Context {W : Type}.
Variable base : AbstractGrantType W.

(** What the constructor has checked of a model it accepts: [getUser] and
    [saveToken], nothing else. *)
Lemma JWTBearerGrantType_accepted options s this s' :
  JWTBearerGrantType base options s = (Ok this, s') ->
  exists getUser saveToken,
    get (model this) "getUser" = Ok getUser /\ truthy getUser = true
    /\ get (model this) "saveToken" = Ok saveToken /\ truthy saveToken = true.
Proof.
  unfold JWTBearerGrantType, bind, lift, on_world, throw, ret.
  destruct (get _ "model") as [m | e]; [| discriminate].
  destruct (truthy m); [| discriminate]; cbn.
  destruct (get m "getUser") as [gu | e] eqn:Hgu; [| discriminate].
  destruct (truthy gu) eqn:Htu; [| discriminate]; cbn.
  destruct (get m "saveToken") as [st | e] eqn:Hst; [| discriminate].
  destruct (truthy st) eqn:Hts; [| discriminate]; cbn.
  destruct (construct base _ (world s)) as [[[] | e] w]; [| discriminate].
  intros [= <- _]. cbn. now exists gu, st.
Qed.

(** A model without [getUser] or without [saveToken] is refused with an
    [InvalidArgumentError], before the base constructor runs. *)
Lemma JWTBearerGrantType_refused options m p s :
  get options "model" = Ok m ->
  truthy options = true ->
  truthy m = true ->
  In p ["getUser"; "saveToken"] ->
  get m p = Ok VUndefined ->
  exists msg, JWTBearerGrantType base options s = (Throw (InvalidArgumentError msg), s).
Proof.
  intros Hm Ho Ht Hp Habs.
  unfold JWTBearerGrantType, bind, lift, throw. rewrite Ho, Hm, Ht. cbn.
  destruct Hp as [<- | [<- | []]].
  - rewrite Habs. now eexists.
  - destruct (get m "getUser") as [gu | e] eqn:Hgu.
    + destruct (truthy gu); cbn; [rewrite Habs |]; now eexists.
    + destruct m; cbn in Hgu, Ht; discriminate.
Qed.

End Construct.

(** C3: the constructor tests the model for [getUser], and [getUser] the
    method calls [model.getUserFromJWT]. A model that has [getUser] and
    [saveToken] and no [getUserFromJWT] is accepted by the constructor, and
    the first request handled with it fails, with the runtime's [TypeError]
    and not with an [InvalidArgumentError], once [getScope] has run. *)
Theorem constructor_misses_getUserFromJWT :
  JWTBearerGrantType Scenario.base (VObj [("model", Scenario.password_model)]) Scenario.s0 =
    (Ok {| model := Scenario.password_model |}, Scenario.s0)
  /\ get Scenario.password_model "getUserFromJWT" = Ok VUndefined
  /\ handle Scenario.base Scenario.call {| model := Scenario.password_model |}
            (Scenario.request "read") Scenario.client Scenario.s0 =
       ( Ok (Rejected (TypeError "fn is not a function")),
         State [] [EvGetScope (Scenario.request "read") (Ok (VStr "read"))] )
  /\ is_InvalidArgument (TypeError "fn is not a function") = false.
Proof.
  repeat split.
Qed.

(** The other way round, a model that has the two functions the grant calls,
    [getUserFromJWT] and [saveToken], is refused for want of [getUser]. *)
Example constructor_refuses_jwt_model :
  JWTBearerGrantType Scenario.base
    (VObj [("model", VObj [("getUserFromJWT", VFun "resolve"); ("saveToken", VFun "store")])])
    Scenario.s0 =
    ( Throw (InvalidArgumentError
               (VStr "Invalid argument: model does not implement `getUser()`")),
      Scenario.s0 ).
Proof. reflexivity. Qed.

(** ** More on the constructor *)

Section ConstructMore.
Context {W : Type}.
Variable base : AbstractGrantType W.

(** Without options, or with options that have no [model], the constructor
    throws [InvalidArgumentError] with the message of line 24 and leaves the
    state alone: the base constructor is not reached. *)
Theorem JWTBearerGrantType_missing_model options m s :
  get (or_empty options) "model" = Ok m ->
  truthy m = false ->
  JWTBearerGrantType base options s =
    (Throw (InvalidArgumentError (VStr "Missing parameter: `model`")), s).
Proof.
  unfold or_empty. intros Hm Ht.
  unfold JWTBearerGrantType, bind, lift, throw. now rewrite Hm, Ht.
Qed.

(** A model is tested for [getUser] first and for [saveToken] second: the
    message names the first of the two that is missing, and the base
    constructor is not reached. *)
Theorem JWTBearerGrantType_missing_method options m getUser saveToken s :
  get (or_empty options) "model" = Ok m ->
  truthy m = true ->
  get m "getUser" = Ok getUser ->
  get m "saveToken" = Ok saveToken ->
  truthy getUser && truthy saveToken = false ->
  JWTBearerGrantType base options s =
    ( Throw (InvalidArgumentError
               (VStr (if truthy getUser
                      then "Invalid argument: model does not implement `saveToken()`"
                      else "Invalid argument: model does not implement `getUser()`"))),
      s ).
Proof.
  unfold or_empty. intros Hm Ht Hg Hs Hmiss.
  unfold JWTBearerGrantType, bind, lift, throw. rewrite Hm, Ht. cbn.
  rewrite Hg. destruct (truthy getUser); cbn in *; [| reflexivity].
  now rewrite Hs, Hmiss.
Qed.

(** The constructor succeeds exactly when the options have a model with a
    truthy [getUser] and a truthy [saveToken] and the base constructor
    accepts [options || {}]; the instance then holds that model, and the
    only change of state is the one the base constructor made. *)
Theorem JWTBearerGrantType_accepts_iff options s this s' :
  JWTBearerGrantType base options s = (Ok this, s') <->
  exists getUser saveToken,
    get (or_empty options) "model" = Ok (model this)
    /\ truthy (model this) = true
    /\ get (model this) "getUser" = Ok getUser /\ truthy getUser = true
    /\ get (model this) "saveToken" = Ok saveToken /\ truthy saveToken = true
    /\ construct base (or_empty options) (world s) = (Ok tt, world s')
    /\ trace s' = trace s.
Proof.
  unfold or_empty, JWTBearerGrantType, bind, lift, on_world, throw, ret. split.
  - destruct (get _ "model") as [m | e]; [| discriminate].
    destruct (truthy m) eqn:Htm; [| discriminate]; cbn.
    destruct (get m "getUser") as [gu | e] eqn:Hgu; [| discriminate].
    destruct (truthy gu) eqn:Htu; [| discriminate]; cbn.
    destruct (get m "saveToken") as [st | e] eqn:Hst; [| discriminate].
    destruct (truthy st) eqn:Hts; [| discriminate]; cbn.
    destruct (construct base _ (world s)) as [[[] | e] w]; [| discriminate].
    intros [= <- <-]. cbn. exists gu, st. now repeat split.
  - intros (gu & st & Hm & Htm & Hgu & Htu & Hst & Hts & Hc & Htr).
    rewrite Hm, Htm. cbn. rewrite Hgu, Htu. cbn. rewrite Hst, Hts. cbn.
    rewrite Hc. destruct this as [m], s' as [w' tr']. cbn in *. now subst.
Qed.

(** When the model passes the two tests, an error of the base constructor is
    the error of the constructor. *)
Theorem JWTBearerGrantType_base_error options m getUser saveToken e w' s :
  get (or_empty options) "model" = Ok m ->
  truthy m = true ->
  get m "getUser" = Ok getUser -> truthy getUser = true ->
  get m "saveToken" = Ok saveToken -> truthy saveToken = true ->
  construct base (or_empty options) (world s) = (Throw e, w') ->
  JWTBearerGrantType base options s = (Throw e, State w' (trace s)).
Proof.
  unfold or_empty. intros Hm Htm Hgu Htu Hst Hts Hc.
  unfold JWTBearerGrantType, bind, lift, on_world, throw.
  rewrite Hm, Htm. cbn. rewrite Hgu, Htu. cbn. rewrite Hst, Hts. cbn.
  now rewrite Hc.
Qed.

End ConstructMore.

(** ** More on [getUser] *)

Section GetUserMore.
Context {W : Type}.
Variable call : fid -> list value -> W -> promise value * W.

(** The two shapes of a run of [getUser]. *)
Lemma getUser_run_shape this request s r s' :
  getUser call this request s = (r, s') ->
  (exists e, r = Throw e /\ s' = s)
  \/ (exists body assertion f p w' q,
        get request "body" = Ok body
        /\ get body "assertion" = Ok assertion
        /\ get (model this) "getUserFromJWT" = Ok (VFun f)
        /\ call f [assertion] (world s) = (p, w')
        /\ r = Ok q
        /\ s' = State w' (trace s ++ [EvCall f [assertion] p])).
Proof.
  intros H.
  destruct (get request "body") as [body | e] eqn:Hb;
    [| unfold getUser, bind, lift in H; rewrite Hb in H; injection H as <- <-;
       left; now eexists].
  destruct (get body "assertion") as [assertion | e] eqn:Ha;
    [| unfold getUser, bind, lift in H; rewrite Hb, Ha in H; injection H as <- <-;
       left; now eexists].
  destruct (truthy assertion) eqn:Ht;
    [| unfold getUser, bind, lift in H; rewrite Hb, Ha, Ht in H; injection H as <- <-;
       left; now eexists].
  destruct (get (model this) "getUserFromJWT") as [fn | e] eqn:Hm;
    [| unfold getUser, bind, lift in H; rewrite Hb, Ha, Ht, Hm in H;
       injection H as <- <-; left; now eexists].
  destruct fn as [ | | | | | | f | ];
    try (unfold getUser, bind, lift in H; rewrite Hb, Ha, Ht, Hm in H;
         injection H as <- <-; left; now eexists).
  destruct (call f [assertion] (world s)) as [p w'] eqn:Hc.
  rewrite (getUser_calls_resolver call _ _ _ _ _ _ _ _ Hb Ha Ht Hm Hc) in H.
  injection H as <- <-. right.
  exists body, assertion, f, p, w'. eexists. now repeat split.
Qed.

(** Every run of [getUser] has one of two shapes. Either it throws while it
    is called and nothing was invoked; or it returns a promise and the
    resolver [model.getUserFromJWT] was called exactly once, with the
    non-empty assertion of the request as its only argument. *)
Theorem getUser_one_call this request s r s' :
  getUser call this request s = (r, s') ->
  (exists e, r = Throw e /\ s' = s)
  \/ (exists body assertion f p w' q,
        get request "body" = Ok body
        /\ get body "assertion" = Ok assertion
        /\ truthy assertion = true
        /\ get (model this) "getUserFromJWT" = Ok (VFun f)
        /\ call f [assertion] (world s) = (p, w')
        /\ r = Ok q
        /\ s' = State w' (trace s ++ [EvCall f [assertion] p])).
Proof.
  intros H.
  destruct (getUser_run_shape this request s r s' H)
    as [Hthrow | (body & assertion & f & p & w' & q & Hb & Ha & Hm & Hc & -> & ->)];
    [now left |].
  destruct (truthy assertion) eqn:Ht.
  - right. exists body, assertion, f, p, w', q. now repeat split.
  - unfold getUser, bind, lift, throw in H. rewrite Hb, Ha, Ht in H.
    discriminate.
Qed.

(** A resolver that rejects with [null] or [undefined] is not turned into an
    [InvalidGrantError]: reading [e.message] in the [catch] callback throws,
    and [getUser] rejects with the runtime's [TypeError]. *)
Theorem getUser_rejection_without_message this request body assertion f v w' s :
  get request "body" = Ok body ->
  get body "assertion" = Ok assertion ->
  truthy assertion = true ->
  get (model this) "getUserFromJWT" = Ok (VFun f) ->
  call f [assertion] (world s) = (Rejected (Raised v), w') ->
  v = VUndefined \/ v = VNull ->
  exists m,
    getUser call this request s =
      ( Ok (Rejected (TypeError m)),
        State w' (trace s ++ [EvCall f [assertion] (Rejected (Raised v))]) )
    /\ is_InvalidGrant (TypeError m) = false.
Proof.
  intros Hb Ha Ht Hm Hc Hv.
  rewrite (getUser_calls_resolver call _ _ _ _ _ _ _ _ Hb Ha Ht Hm Hc).
  destruct Hv as [-> | ->]; cbn; eexists; split; reflexivity.
Qed.

End GetUserMore.

Lemma getUser_one_call_witness :
  (exists e,
     Ok (Resolved Scenario.user) = Throw e
     /\ State [] [EvCall "resolve" [Scenario.jwt] (Resolved Scenario.user)] = Scenario.s0)
  \/ (exists body assertion f p w' q,
        get (Scenario.request "read") "body" = Ok body
        /\ get body "assertion" = Ok assertion
        /\ truthy assertion = true
        /\ get (model Scenario.this) "getUserFromJWT" = Ok (VFun f)
        /\ Scenario.call f [assertion] (world Scenario.s0) = (p, w')
        /\ Ok (Resolved Scenario.user) = Ok q
        /\ State [] [EvCall "resolve" [Scenario.jwt] (Resolved Scenario.user)] =
           State w' (trace Scenario.s0 ++ [EvCall f [assertion] p])).
Proof.
  apply (getUser_one_call Scenario.call Scenario.this (Scenario.request "read")
           Scenario.s0).
  reflexivity.
Defined.

Lemma getUser_rejection_without_message_witness :
  exists m,
    getUser Scenario.call Cases.void_resolver (Scenario.request "read") Scenario.s0 =
      ( Ok (Rejected (TypeError m)),
        State [] [EvCall "void" [Scenario.jwt] (Rejected (Raised VUndefined))] )
    /\ is_InvalidGrant (TypeError m) = false.
Proof.
  apply (getUser_rejection_without_message Scenario.call Cases.void_resolver
           (Scenario.request "read")
           (VObj [("assertion", Scenario.jwt); ("scope", VStr "read")])
           Scenario.jwt "void" VUndefined [] Scenario.s0);
    try reflexivity.
  now left.
Defined.

(** ** More on [saveToken] and [handle] *)

Section HandleMore.
Context {W : Type}.
Variable base : AbstractGrantType W.
Variable call : fid -> list value -> W -> promise value * W.

(** A run of [saveToken] adds at most six events to the trace, at most one
    of them a call of the model. *)
Lemma saveToken_run_bound this user client scope s :
  exists evs,
    trace (snd (saveToken base call this user client scope s)) = (trace s ++ evs)%list
    /\ length evs <= 6
    /\ length (filter is_model_call evs) <= 1
    /\ (existsb is_producer evs = false -> evs = []).
Proof.
  unfold saveToken, bind, invoke, lift, spread, then_, throw, ret; cbn.
  repeat next_outcome.
  all: rewrite <- ?app_assoc; cbn; eexists; split; [reflexivity |]; cbn.
  all: repeat split; try lia; discriminate.
Qed.

(** A producer that throws while it is called ends [saveToken] there: the
    method throws the same error, and the throwing call is the last one
    made, so the producers after it in the array are not called. *)
Theorem saveToken_throwing_producer this user client scope s r s'
        (evs : list event) ev e :
  saveToken base call this user client scope s = (r, s') ->
  trace s' = (trace s ++ evs)%list ->
  In ev evs ->
  producer_threw ev = Some e ->
  r = Throw e /\ exists pre, evs = (pre ++ [ev])%list.
Proof.
  intros Hrun Htr Hin Hthrew. revert Hrun.
  unfold saveToken, bind, invoke, lift, spread, then_, throw, ret; cbn.
  repeat next_outcome.
  all: intros [= <- <-]; cbn in Htr; rewrite <- ?app_assoc in Htr;
    apply app_inv_head in Htr; subst evs; cbn in Hin.
  all: repeat (destruct Hin as [<- | Hin]; [try discriminate |]); try contradiction.
  all: injection Hthrew as <-; split; [reflexivity |].
  all: match goal with |- exists pre, ?l = _ => exists (removelast l); reflexivity end.
Qed.

(** A producer that rejects does not stop the others. Whenever [saveToken]
    returns a promise, all five producers were called, once each and in the
    order of the array, with the scope [saveToken] was given. The store is
    called after them, once, with the assembled token, exactly when all five
    resolved and [model.saveToken] is a function; in every other case
    nothing more is called and the promise is rejected. *)
Theorem saveToken_calls_all_producers this user client scope s q s' :
  saveToken base call this user client scope s = (Ok q, s') ->
  exists r1 r2 r3 r4 r5 rest,
    trace s' =
      (trace s ++
       [ EvValidateScope user client scope (Ok r1);
         EvGenerateAccessToken client user scope (Ok r2);
         EvGenerateRefreshToken client user scope (Ok r3);
         EvGetAccessTokenExpiresAt (Ok r4);
         EvGetRefreshTokenExpiresAt (Ok r5) ] ++ rest)%list
    /\ ((exists g S A R Ea Er,
           r1 = Resolved S /\ r2 = Resolved A /\ r3 = Resolved R
           /\ r4 = Resolved Ea /\ r5 = Resolved Er
           /\ get (model this) "saveToken" = Ok (VFun g)
           /\ rest = [EvCall g [token_record A Ea R Er S; client; user] q])
        \/ (rest = [] /\ failed (Ok q) = true
            /\ (existsb failed [Ok r1; Ok r2; Ok r3; Ok r4; Ok r5] = true
                \/ forall g, get (model this) "saveToken" <> Ok (VFun g)))).
Proof.
  unfold saveToken, bind, invoke, lift, spread, then_, throw, ret; cbn.
  repeat next_outcome; try discriminate.
  all: intros [= <- <-]; rewrite <- ?app_assoc; cbn.
  all: do 5 eexists.
  all: try (exists []; split; [reflexivity | right];
            repeat split; try (left; reflexivity);
            right; intros g; congruence).
  all: eexists; split; [reflexivity | left]; now repeat eexists.
Qed.

(** When exactly one producer fails, its error is the error of [saveToken],
    unchanged. *)
Theorem saveToken_single_failure this user client scope s r s'
        (evs : list event) ev :
  saveToken base call this user client scope s = (r, s') ->
  trace s' = (trace s ++ evs)%list ->
  filter producer_failure evs = [ev] ->
  failure r = producer_error ev /\ failed r = true.
Proof.
  intros Hrun Htr Hone. revert Hrun.
  unfold saveToken, bind, invoke, lift, spread, then_, throw, ret; cbn.
  repeat next_outcome.
  all: intros [= <- <-]; cbn in Htr; rewrite <- ?app_assoc in Htr;
    apply app_inv_head in Htr; subst evs; cbn in Hone.
  all: try discriminate.
  all: injection Hone as <-; split; reflexivity.
Qed.

(** [p.then(f)] never throws: what [f] throws rejects the promise. *)
Lemma then_returns {A B} (p : promise A) (f : A -> M W (promise B)) s :
  exists q, fst (then_ p f s) = Ok q.
Proof.
  destruct p as [a | e]; cbn; [| now eexists].
  destruct (f a s) as [[q | e] s1]; now eexists.
Qed.

(** The message of the [InvalidArgumentError] of [handle]: a missing
    [request] is reported before a missing [client]. *)
Theorem handle_argument_message this request client s :
  truthy request && truthy client = false ->
  handle base call this request client s =
    ( Throw (InvalidArgumentError
               (VStr (if truthy request then "Missing parameter: `client`"
                      else "Missing parameter: `request`"))),
      s ).
Proof.
  unfold handle, throw. intros H.
  destruct (truthy request); cbn in *; [| reflexivity].
  now rewrite H.
Qed.

(** An error thrown by [getScope] is thrown by [handle] itself, not
    delivered as a rejection, and nothing else is called: the resolver is
    not asked about a request whose scope cannot be read. *)
Theorem handle_getScope_throws this request client s e w1 :
  truthy request = true ->
  truthy client = true ->
  getScope base request (world s) = (Throw e, w1) ->
  handle base call this request client s =
    (Throw e, State w1 (trace s ++ [EvGetScope request (Throw e)])).
Proof.
  intros Hr Hc Hs. unfold handle, bind, invoke. rewrite Hr, Hc.
  cbn -[getUser saveToken]. now rewrite Hs.
Qed.

(** Conversely, [handle] throws only for a missing argument or from
    [getScope]; every other failure is a rejected promise. *)
Theorem handle_throws_only this request client s e s' :
  handle base call this request client s = (Throw e, s') ->
  (truthy request && truthy client = false /\ is_InvalidArgument e = true /\ s' = s)
  \/ (truthy request && truthy client = true
      /\ getScope base request (world s) = (Throw e, world s')
      /\ trace s' = (trace s ++ [EvGetScope request (Throw e)])%list).
Proof.
  unfold handle, bind, invoke, throw.
  destruct (truthy request); cbn -[getUser saveToken then_];
    [| intros [= <- <-]; left; now repeat split].
  destruct (truthy client); cbn -[getUser saveToken then_];
    [| intros [= <- <-]; left; now repeat split].
  destruct (getScope base request (world s)) as [[sc | e1] w1];
    [| intros [= <- <-]; right; now repeat split].
  set (s1 := State w1 _).
  destruct (then_ (Resolved tt) (fun _ => getUser call this request) s1)
    as [[p | e1] s2] eqn:H1.
  - intros H.
    destruct (then_returns p (fun user => saveToken base call this user client sc) s2)
      as [q Hq].
    rewrite H in Hq. discriminate.
  - destruct (then_returns (Resolved tt) (fun _ => getUser call this request) s1)
      as [q Hq].
    rewrite H1 in Hq. discriminate.
Qed.

(** When [getUser] fails, by throwing or by rejecting, [handle] rejects with
    the same error and stops: the state it leaves is the one [getUser] left,
    so no scope is validated, no token generated, nothing stored. *)
Theorem handle_getUser_failure this request client s sc w1 r s2 e :
  truthy request = true ->
  truthy client = true ->
  getScope base request (world s) = (Ok sc, w1) ->
  getUser call this request (State w1 (trace s ++ [EvGetScope request (Ok sc)])) = (r, s2) ->
  failure r = Some e ->
  handle base call this request client s = (Ok (Rejected e), s2).
Proof.
  intros Hr Hc Hs Hu Hf. unfold handle, bind, invoke. rewrite Hr, Hc.
  cbn -[getUser saveToken]. rewrite Hs. cbn -[getUser saveToken]. rewrite Hu.
  destruct r as [[u | e1] | e1]; cbn in Hf; try discriminate;
    injection Hf as ->; reflexivity.
Qed.

(** A rejection of the store is the rejection of [handle], as it is: unlike
    an error of the resolver it is not turned into an [InvalidGrantError].
    The store was called once, with the assembled token. *)
Theorem handle_store_rejection this request client s
      sc body assertion f U S A R Ea Er g e w1 w2 w3 w4 w5 w6 w7 w8 :
  truthy request = true ->
  truthy client = true ->
  getScope base request (world s) = (Ok sc, w1) ->
  get request "body" = Ok body ->
  get body "assertion" = Ok assertion ->
  truthy assertion = true ->
  get (model this) "getUserFromJWT" = Ok (VFun f) ->
  call f [assertion] w1 = (Resolved U, w2) ->
  truthy U = true ->
  validateScope base U client sc w2 = (Ok (Resolved S), w3) ->
  generateAccessToken base client U sc w3 = (Ok (Resolved A), w4) ->
  generateRefreshToken base client U sc w4 = (Ok (Resolved R), w5) ->
  getAccessTokenExpiresAt base w5 = (Ok (Resolved Ea), w6) ->
  getRefreshTokenExpiresAt base w6 = (Ok (Resolved Er), w7) ->
  get (model this) "saveToken" = Ok (VFun g) ->
  call g [token_record A Ea R Er S; client; U] w7 = (Rejected e, w8) ->
  handle base call this request client s =
    ( Ok (Rejected e),
      State w8
        (trace s ++
         [ EvGetScope request (Ok sc);
           EvCall f [assertion] (Resolved U);
           EvValidateScope U client sc (Ok (Resolved S));
           EvGenerateAccessToken client U sc (Ok (Resolved A));
           EvGenerateRefreshToken client U sc (Ok (Resolved R));
           EvGetAccessTokenExpiresAt (Ok (Resolved Ea));
           EvGetRefreshTokenExpiresAt (Ok (Resolved Er));
           EvCall g [token_record A Ea R Er S; client; U] (Rejected e) ]) ).
Proof.
  intros Hr Hcl Hsc Hb Ha Ht Hm Hres HU H1 H2 H3 H4 H5 Hg Hst.
  unfold handle, bind, invoke. rewrite Hr, Hcl. cbn -[getUser saveToken].
  rewrite Hsc.
  set (s1 := State w1 (trace s ++ [EvGetScope request (Ok sc)])).
  assert (Hu : getUser call this request s1 =
               (Ok (Resolved U), State w2 (trace s1 ++ [EvCall f [assertion] (Resolved U)]))).
  { rewrite (getUser_calls_resolver call this request body assertion f (Resolved U) w2 s1
               Hb Ha Ht Hm Hres).
    now rewrite HU. }
  rewrite Hu. cbn [then_].
  rewrite (saveToken_resolved base call this U client sc
             (State w2 (trace s1 ++ [EvCall f [assertion] (Resolved U)]))
             S A R Ea Er w3 w4 w5 w6 w7 g (Rejected e) w8
             H1 H2 H3 H4 H5 Hg Hst).
  cbn. now rewrite <- !app_assoc.
Qed.

(** No scope is validated and no token generated before the resolver has
    returned a truthy user: a run of [handle] in which a producer is called
    begins with [getScope] and with a call of the resolver that resolved
    with such a user. *)
Theorem handle_producers_need_user this request client s r s' (evs : list event) :
  handle base call this request client s = (r, s') ->
  trace s' = (trace s ++ evs)%list ->
  existsb is_producer evs = true ->
  exists sc assertion f U rest,
    evs = EvGetScope request (Ok sc) :: EvCall f [assertion] (Resolved U) :: rest
    /\ truthy U = true.
Proof.
  intros Hrun Htr Hprod. revert Hrun.
  unfold handle, bind, invoke, throw.
  destruct (truthy request); cbn -[getUser saveToken];
    [| intros [= _ <-]; rewrite <- (app_nil_r (trace s)) in Htr at 1;
       apply app_inv_head in Htr; now subst evs].
  destruct (truthy client); cbn -[getUser saveToken];
    [| intros [= _ <-]; rewrite <- (app_nil_r (trace s)) in Htr at 1;
       apply app_inv_head in Htr; now subst evs].
  destruct (getScope base request (world s)) as [[sc | e1] w1];
    [| intros [= _ <-]; cbn in Htr; apply app_inv_head in Htr; now subst evs].
  set (s1 := State w1 (trace s ++ [EvGetScope request (Ok sc)])).
  destruct (getUser call this request s1) as [ru s2] eqn:Hu.
  destruct (getUser_run_shape call this request s1 ru s2 Hu)
    as [(e1 & -> & ->) | (body & assertion & f & p & w2 & q & _ & _ & _ & _ & -> & Hs2)].
  - cbn. intros [= _ <-]. cbn in Htr. apply app_inv_head in Htr. now subst evs.
  - destruct q as [U | e1]; cbn -[saveToken].
    + apply getUser_resolved_inv in Hu
        as (body' & a' & f' & w2' & _ & _ & _ & _ & _ & HU & ->).
      destruct (saveToken_run_bound this U client sc
                  (State w2' (trace s1 ++ [EvCall f' [a'] (Resolved U)])))
        as (evs' & Hevs' & _).
      destruct (saveToken base call this U client sc _) as [[qs | es] s3];
        intros [= _ <-]; cbn in Hevs'; rewrite Hevs' in Htr;
        rewrite <- !app_assoc in Htr; apply app_inv_head in Htr; subst evs;
        now exists sc, a', f', U, evs'.
    + intros [= _ <-]. subst s2. cbn in Htr. rewrite <- app_assoc in Htr.
      apply app_inv_head in Htr. now subst evs.
Qed.

(** Nothing is retried: a run of [handle] makes at most eight calls, at most
    two of them calls of the host's model (the resolver and the store). *)
Theorem handle_call_bound this request client s :
  exists evs,
    trace (snd (handle base call this request client s)) = (trace s ++ evs)%list
    /\ length evs <= 8
    /\ length (filter is_model_call evs) <= 2.
Proof.
  unfold handle, bind, invoke, throw.
  destruct (truthy request); cbn -[getUser saveToken];
    [| exists []; rewrite app_nil_r; cbn; repeat split; lia].
  destruct (truthy client); cbn -[getUser saveToken];
    [| exists []; rewrite app_nil_r; cbn; repeat split; lia].
  destruct (getScope base request (world s)) as [[sc | e1] w1];
    [| eexists; split; [reflexivity | cbn; split; lia]].
  set (s1 := State w1 (trace s ++ [EvGetScope request (Ok sc)])).
  destruct (getUser call this request s1) as [ru s2] eqn:Hu.
  destruct (getUser_run_shape call this request s1 ru s2 Hu)
    as [(e1 & -> & ->) | (body & assertion & f & p & w2 & q & _ & _ & _ & _ & -> & ->)].
  - cbn. eexists; split; [reflexivity | cbn; split; lia].
  - destruct q as [U | e1]; cbn -[saveToken].
    + destruct (saveToken_run_bound this U client sc
                  (State w2 (trace s1 ++ [EvCall f [assertion] p])))
        as (evs' & Hevs' & Hlen & Hcalls & _).
      destruct (saveToken base call this U client sc _) as [[qs | es] s3];
        cbn in *; rewrite Hevs', <- !app_assoc;
        (eexists; split; [reflexivity | cbn; split; lia]).
    + rewrite <- app_assoc. eexists; split; [reflexivity | cbn; split; lia].
Qed.

(** Where the producers of a run come from: [saveToken] begins with the
    scope validator, and once that call has returned, with a promise that
    resolves or one that rejects, the access-token generator is called next
    with the same scope, and after it the refresh-token generator. *)
Lemma saveToken_producer_order this user client scope s :
  exists rv0 rest0,
    trace (snd (saveToken base call this user client scope s)) =
      (trace s ++ EvValidateScope user client scope rv0 :: rest0)%list
    /\ forall rv, rv0 = Ok rv ->
         exists ra rest,
           rest0 = EvGenerateAccessToken client user scope ra :: rest
           /\ forall pa, ra = Ok pa ->
                exists rr rest', rest = EvGenerateRefreshToken client user scope rr :: rest'.
Proof.
  unfold saveToken, bind, invoke, lift, spread, then_, throw, ret; cbn.
  repeat next_outcome.
  all: rewrite <- ?app_assoc; cbn; do 2 eexists; split; [reflexivity |].
  all: intros rv [= <-] || (intros rv Hrv; discriminate Hrv).
  all: do 2 eexists; split; [reflexivity |].
  all: intros pa [= <-] || (intros pa Hpa; discriminate Hpa).
  all: do 2 eexists; reflexivity.
Qed.

(** C8: the requested scope [sc] is read from the request first, before the
    resolver is called. In every grant that succeeds the scope validator and
    both token generators are called with that same [sc], and the token
    handed to the store has for its [scope] the scope [S] the validator
    returned, not [sc]. The generators do not wait for the validator: in
    every run that reaches the producers, as soon as the call of the
    validator has returned, whatever its promise settles with, the
    access-token generator is called with [sc], and after it the
    refresh-token generator with [sc]. *)
Theorem handle_scope_flow this request client s r s' (evs : list event) :
  handle base call this request client s = (r, s') ->
  trace s' = (trace s ++ evs)%list ->
  (forall v, r = Ok (Resolved v) ->
     exists sc assertion f U S A R Ea Er g,
       evs =
         [ EvGetScope request (Ok sc);
           EvCall f [assertion] (Resolved U);
           EvValidateScope U client sc (Ok (Resolved S));
           EvGenerateAccessToken client U sc (Ok (Resolved A));
           EvGenerateRefreshToken client U sc (Ok (Resolved R));
           EvGetAccessTokenExpiresAt (Ok (Resolved Ea));
           EvGetRefreshTokenExpiresAt (Ok (Resolved Er));
           EvCall g [token_record A Ea R Er S; client; U] (Resolved v) ]
       /\ get (token_record A Ea R Er S) "scope" = Ok S)
  /\ (existsb is_producer evs = true ->
      exists sc assertion f U rv0 rest0,
        evs = EvGetScope request (Ok sc) :: EvCall f [assertion] (Resolved U)
              :: EvValidateScope U client sc rv0 :: rest0
        /\ forall rv, rv0 = Ok rv ->
             exists ra rest,
               rest0 = EvGenerateAccessToken client U sc ra :: rest
               /\ forall pa, ra = Ok pa ->
                    exists rr rest',
                      rest = EvGenerateRefreshToken client U sc rr :: rest').
Proof.
  intros Hrun Htr. split.
  - intros v ->.
    destruct (handle_resolved_inv base call this request client s v s' Hrun)
      as (sc & assertion & f & U & S & A & R & Ea & Er & g & Hshape & Hscope).
    rewrite Hshape in Htr. apply app_inv_head in Htr. subst evs.
    now exists sc, assertion, f, U, S, A, R, Ea, Er, g.
  - intros Hprod. revert Hrun.
    unfold handle, bind, invoke, throw.
    destruct (truthy request); cbn -[getUser saveToken];
      [| intros [= _ <-]; rewrite <- (app_nil_r (trace s)) in Htr at 1;
         apply app_inv_head in Htr; now subst evs].
    destruct (truthy client); cbn -[getUser saveToken];
      [| intros [= _ <-]; rewrite <- (app_nil_r (trace s)) in Htr at 1;
         apply app_inv_head in Htr; now subst evs].
    destruct (getScope base request (world s)) as [[sc | e1] w1];
      [| intros [= _ <-]; cbn in Htr; apply app_inv_head in Htr; now subst evs].
    set (s1 := State w1 (trace s ++ [EvGetScope request (Ok sc)])).
    destruct (getUser call this request s1) as [ru s2] eqn:Hu.
    destruct (getUser_run_shape call this request s1 ru s2 Hu)
      as [(e1 & -> & ->) | (body & assertion & f & p & w2 & q & _ & _ & _ & _ & -> & Hs2)].
    + cbn. intros [= _ <-]. cbn in Htr. apply app_inv_head in Htr. now subst evs.
    + destruct q as [U | e1]; cbn -[saveToken].
      * apply getUser_resolved_inv in Hu
          as (body' & a' & f' & w2' & _ & _ & _ & _ & _ & _ & ->).
        destruct (saveToken_producer_order this U client sc
                    (State w2' (trace s1 ++ [EvCall f' [a'] (Resolved U)])))
          as (rv0 & rest0 & Hevs' & Hnext).
        destruct (saveToken base call this U client sc _) as [[qs | es] s3];
          intros [= _ <-]; cbn in Hevs'; rewrite Hevs' in Htr;
          rewrite <- !app_assoc in Htr; apply app_inv_head in Htr; subst evs;
          now exists sc, a', f', U, rv0, rest0.
      * intros [= _ <-]. subst s2. cbn in Htr. rewrite <- app_assoc in Htr.
        apply app_inv_head in Htr. now subst evs.
Qed.

End HandleMore.

(** *** The same at concrete constructions and runs *)

Lemma JWTBearerGrantType_missing_model_witness :
  JWTBearerGrantType Scenario.base VUndefined Scenario.s0 =
    (Throw (InvalidArgumentError (VStr "Missing parameter: `model`")), Scenario.s0).
Proof.
  apply (JWTBearerGrantType_missing_model Scenario.base VUndefined VUndefined Scenario.s0);
    reflexivity.
Defined.

(** A model with neither function is told about [getUser]. *)
Lemma JWTBearerGrantType_missing_method_witness :
  JWTBearerGrantType Scenario.base (VObj [("model", VObj [])]) Scenario.s0 =
    ( Throw (InvalidArgumentError
               (VStr "Invalid argument: model does not implement `getUser()`")),
      Scenario.s0 ).
Proof.
  apply (JWTBearerGrantType_missing_method Scenario.base (VObj [("model", VObj [])])
           (VObj []) VUndefined VUndefined Scenario.s0);
    reflexivity.
Defined.

Lemma JWTBearerGrantType_accepts_iff_witness :
  JWTBearerGrantType Scenario.base (VObj [("model", Scenario.model)]) Scenario.s0 =
    (Ok Scenario.this, Scenario.s0).
Proof.
  apply (proj2 (JWTBearerGrantType_accepts_iff Scenario.base
                  (VObj [("model", Scenario.model)]) Scenario.s0 Scenario.this Scenario.s0)).
  exists (VFun "resolve"), (VFun "store"). repeat split.
Defined.

Lemma JWTBearerGrantType_base_error_witness :
  JWTBearerGrantType Cases.strict (VObj [("model", Scenario.model)]) Scenario.s0 =
    ( Throw (InvalidArgumentError (VStr "Missing parameter: `accessTokenLifetime`")),
      Scenario.s0 ).
Proof.
  apply (JWTBearerGrantType_base_error Cases.strict (VObj [("model", Scenario.model)])
           Scenario.model (VFun "resolve") (VFun "store")
           (InvalidArgumentError (VStr "Missing parameter: `accessTokenLifetime`"))
           [] Scenario.s0);
    reflexivity.
Defined.

(** The validator throws: nothing after it is called. *)
Lemma saveToken_throwing_producer_witness :
  Throw (A := promise value) Cases.invalid_scope = Throw Cases.invalid_scope
  /\ exists pre,
       [EvValidateScope Scenario.user Scenario.client (VStr "read")
                        (Throw Cases.invalid_scope)] =
       (pre ++ [EvValidateScope Scenario.user Scenario.client (VStr "read")
                                (Throw Cases.invalid_scope)])%list.
Proof.
  apply (saveToken_throwing_producer Cases.throwing_validator Scenario.call Scenario.this
           Scenario.user Scenario.client (VStr "read") Scenario.s0
           (Throw Cases.invalid_scope)
           (State [] [EvValidateScope Scenario.user Scenario.client (VStr "read")
                                      (Throw Cases.invalid_scope)])
           [EvValidateScope Scenario.user Scenario.client (VStr "read")
                            (Throw Cases.invalid_scope)]
           (EvValidateScope Scenario.user Scenario.client (VStr "read")
                            (Throw Cases.invalid_scope))
           Cases.invalid_scope);
    try reflexivity.
  now left.
Defined.

(** The validator rejects: the four producers after it are called all the
    same, and the store is not. All five resolve: the store is called. *)
Lemma saveToken_calls_all_producers_witness :
  (exists r1 r2 r3 r4 r5 rest,
     skipn 2 (Cases.refused "read") =
       ([] ++
        [ EvValidateScope Scenario.user Scenario.client (VStr "read") (Ok r1);
          EvGenerateAccessToken Scenario.client Scenario.user (VStr "read") (Ok r2);
          EvGenerateRefreshToken Scenario.client Scenario.user (VStr "read") (Ok r3);
          EvGetAccessTokenExpiresAt (Ok r4);
          EvGetRefreshTokenExpiresAt (Ok r5) ] ++ rest)%list
     /\ ((exists g S A R Ea Er,
            r1 = Resolved S /\ r2 = Resolved A /\ r3 = Resolved R
            /\ r4 = Resolved Ea /\ r5 = Resolved Er
            /\ get (model Scenario.this) "saveToken" = Ok (VFun g)
            /\ rest = [EvCall g [token_record A Ea R Er S; Scenario.client; Scenario.user]
                              (Rejected Cases.invalid_scope)])
         \/ (rest = [] /\ failed (A := value) (Ok (Rejected Cases.invalid_scope)) = true
             /\ (existsb failed [Ok r1; Ok r2; Ok r3; Ok r4; Ok r5] = true
                 \/ forall g, get (model Scenario.this) "saveToken" <> Ok (VFun g)))))
  /\ (exists r1 r2 r3 r4 r5 rest,
        skipn 2 (Scenario.granted "read") =
          ([] ++
           [ EvValidateScope Scenario.user Scenario.client (VStr "read") (Ok r1);
             EvGenerateAccessToken Scenario.client Scenario.user (VStr "read") (Ok r2);
             EvGenerateRefreshToken Scenario.client Scenario.user (VStr "read") (Ok r3);
             EvGetAccessTokenExpiresAt (Ok r4);
             EvGetRefreshTokenExpiresAt (Ok r5) ] ++ rest)%list
        /\ ((exists g S A R Ea Er,
               r1 = Resolved S /\ r2 = Resolved A /\ r3 = Resolved R
               /\ r4 = Resolved Ea /\ r5 = Resolved Er
               /\ get (model Scenario.this) "saveToken" = Ok (VFun g)
               /\ rest = [EvCall g [token_record A Ea R Er S; Scenario.client; Scenario.user]
                                 (Resolved Scenario.token)])
            \/ (rest = [] /\ failed (Ok (Resolved Scenario.token)) = true
                /\ (existsb failed [Ok r1; Ok r2; Ok r3; Ok r4; Ok r5] = true
                    \/ forall g, get (model Scenario.this) "saveToken" <> Ok (VFun g))))).
Proof.
  split.
  - apply (saveToken_calls_all_producers Cases.rejecting_validator Scenario.call
             Scenario.this Scenario.user Scenario.client (VStr "read") Scenario.s0
             (Rejected Cases.invalid_scope)
             (State [] (skipn 2 (Cases.refused "read")))).
    reflexivity.
  - apply (saveToken_calls_all_producers Scenario.base Scenario.call
             Scenario.this Scenario.user Scenario.client (VStr "read") Scenario.s0
             (Resolved Scenario.token)
             (State [Scenario.token] (skipn 2 (Scenario.granted "read")))).
    reflexivity.
Defined.

(** In the second run the store is called: the other alternative is
    closed, since the promise resolved. *)
Example saveToken_store_called :
  failed (Ok (Resolved Scenario.token)) = false.
Proof. reflexivity. Qed.

Lemma saveToken_single_failure_witness :
  failure (A := value) (Ok (Rejected Scenario.out_of_entropy)) =
    producer_error
      (EvGenerateRefreshToken Scenario.client Scenario.user (VStr "read")
                              (Ok (Rejected Scenario.out_of_entropy)))
  /\ failed (A := value) (Ok (Rejected Scenario.out_of_entropy)) = true.
Proof.
  apply (saveToken_single_failure Scenario.no_refresh Scenario.call Scenario.this
           Scenario.user Scenario.client (VStr "read") Scenario.s0
           (Ok (Rejected Scenario.out_of_entropy))
           (State [] (Scenario.produced "read" (Ok (Rejected Scenario.out_of_entropy))))
           (Scenario.produced "read" (Ok (Rejected Scenario.out_of_entropy))));
    reflexivity.
Defined.

(** Both arguments missing: the message is about [request]. *)
Lemma handle_argument_message_witness :
  handle Scenario.base Scenario.call Scenario.this VNull VNull Scenario.s0 =
    (Throw (InvalidArgumentError (VStr "Missing parameter: `request`")), Scenario.s0).
Proof.
  apply (handle_argument_message Scenario.base Scenario.call Scenario.this VNull VNull
           Scenario.s0).
  reflexivity.
Defined.

(** A request without a body, with a [getScope] that reads
    [request.body.scope]. *)
Lemma handle_getScope_throws_witness :
  handle Scenario.base Scenario.call Scenario.this (VObj []) Scenario.client Scenario.s0 =
    ( Throw (TypeError "Cannot read properties of undefined (reading 'scope')"),
      State []
        [EvGetScope (VObj [])
           (Throw (TypeError "Cannot read properties of undefined (reading 'scope')"))] ).
Proof.
  apply (handle_getScope_throws Scenario.base Scenario.call Scenario.this (VObj [])
           Scenario.client Scenario.s0
           (TypeError "Cannot read properties of undefined (reading 'scope')") []);
    reflexivity.
Defined.

Lemma handle_throws_only_witness :
  (truthy VNull && truthy Scenario.client = false
   /\ is_InvalidArgument (InvalidArgumentError (VStr "Missing parameter: `request`")) = true
   /\ Scenario.s0 = Scenario.s0)
  \/ (truthy VNull && truthy Scenario.client = true
      /\ getScope Scenario.base VNull (world Scenario.s0) =
           (Throw (InvalidArgumentError (VStr "Missing parameter: `request`")),
            world Scenario.s0)
      /\ trace Scenario.s0 =
           (trace Scenario.s0 ++
            [EvGetScope VNull
               (Throw (InvalidArgumentError (VStr "Missing parameter: `request`")))])%list).
Proof.
  apply (handle_throws_only Scenario.base Scenario.call Scenario.this VNull Scenario.client
           Scenario.s0 (InvalidArgumentError (VStr "Missing parameter: `request`"))
           Scenario.s0).
  reflexivity.
Defined.

(** In [handle] a missing assertion is a rejection, not a throw. *)
Lemma handle_getUser_failure_witness :
  handle Scenario.base Scenario.call Scenario.this (Scenario.request_of (VStr ""))
         Scenario.client Scenario.s0 =
    ( Ok (Rejected (InvalidRequestError (VStr "Missing parameter: `assertion`"))),
      State [] [EvGetScope (Scenario.request_of (VStr "")) (Ok VUndefined)] ).
Proof.
  apply (handle_getUser_failure Scenario.base Scenario.call Scenario.this
           (Scenario.request_of (VStr "")) Scenario.client Scenario.s0 VUndefined []
           (Throw (InvalidRequestError (VStr "Missing parameter: `assertion`")))
           (State [] [EvGetScope (Scenario.request_of (VStr "")) (Ok VUndefined)])
           (InvalidRequestError (VStr "Missing parameter: `assertion`")));
    reflexivity.
Defined.

Lemma handle_store_rejection_witness :
  handle Scenario.base Scenario.call Cases.void_store (Scenario.request "read")
         Scenario.client Scenario.s0 =
    ( Ok (Rejected (Raised VUndefined)),
      State []
        ([ EvGetScope (Scenario.request "read") (Ok (VStr "read"));
           EvCall "resolve" [Scenario.jwt] (Resolved Scenario.user) ]
         ++ Scenario.produced "read" (Ok (Resolved (VStr "tok_R")))
         ++ [ EvCall "void" [Scenario.token; Scenario.client; Scenario.user]
                     (Rejected (Raised VUndefined)) ]) ).
Proof.
  apply (handle_store_rejection Scenario.base Scenario.call Cases.void_store
           (Scenario.request "read") Scenario.client Scenario.s0
           (VStr "read")
           (VObj [("assertion", Scenario.jwt); ("scope", VStr "read")])
           Scenario.jwt "resolve" Scenario.user
           (VStr "read") (VStr "tok_A") (VStr "tok_R") Scenario.T1 Scenario.T2 "void"
           (Raised VUndefined) [] [] [] [] [] [] [] []);
    reflexivity.
Defined.

Lemma handle_producers_need_user_witness :
  exists sc assertion f U rest,
    Scenario.granted "read" =
      EvGetScope (Scenario.request "read") (Ok sc)
      :: EvCall f [assertion] (Resolved U) :: rest
    /\ truthy U = true.
Proof.
  apply (handle_producers_need_user Scenario.base Scenario.call Scenario.this
           (Scenario.request "read") Scenario.client Scenario.s0
           (Ok (Resolved Scenario.token))
           (State [Scenario.token] (Scenario.granted "read"))
           (Scenario.granted "read"));
    reflexivity.
Defined.

(** The validator rejects a request for ["read write"]: both generators
    were called with ["read write"] all the same, and nothing is stored. *)
Example handle_refused_scope :
  handle Cases.rejecting_validator Scenario.call Scenario.this
         (Scenario.request "read write") Scenario.client Scenario.s0 =
    (Ok (Rejected Cases.invalid_scope), State [] (Cases.refused "read write")).
Proof. reflexivity. Qed.

(** A grant whose scope the validator narrows from ["read write"] to
    ["read"], and a grant the validator refuses. *)
Lemma handle_scope_flow_witness :
  (exists sc assertion f U S A R Ea Er g,
     Scenario.granted "read write" =
       [ EvGetScope (Scenario.request "read write") (Ok sc);
         EvCall f [assertion] (Resolved U);
         EvValidateScope U Scenario.client sc (Ok (Resolved S));
         EvGenerateAccessToken Scenario.client U sc (Ok (Resolved A));
         EvGenerateRefreshToken Scenario.client U sc (Ok (Resolved R));
         EvGetAccessTokenExpiresAt (Ok (Resolved Ea));
         EvGetRefreshTokenExpiresAt (Ok (Resolved Er));
         EvCall g [token_record A Ea R Er S; Scenario.client; U]
                (Resolved Scenario.token) ]
     /\ get (token_record A Ea R Er S) "scope" = Ok S)
  /\ (exists sc assertion f U rv0 rest0,
        Cases.refused "read write" =
          EvGetScope (Scenario.request "read write") (Ok sc)
          :: EvCall f [assertion] (Resolved U)
          :: EvValidateScope U Scenario.client sc rv0 :: rest0
        /\ forall rv, rv0 = Ok rv ->
             exists ra rest,
               rest0 = EvGenerateAccessToken Scenario.client U sc ra :: rest
               /\ forall pa, ra = Ok pa ->
                    exists rr rest',
                      rest = EvGenerateRefreshToken Scenario.client U sc rr :: rest').
Proof.
  split.
  - apply (proj1 (handle_scope_flow Scenario.narrowing Scenario.call Scenario.this
                    (Scenario.request "read write") Scenario.client Scenario.s0
                    (Ok (Resolved Scenario.token))
                    (State [Scenario.token] (Scenario.granted "read write"))
                    (Scenario.granted "read write") eq_refl eq_refl)
                 Scenario.token eq_refl).
  - apply (proj2 (handle_scope_flow Cases.rejecting_validator Scenario.call Scenario.this
                    (Scenario.request "read write") Scenario.client Scenario.s0
                    (Ok (Rejected Cases.invalid_scope))
                    (State [] (Cases.refused "read write"))
                    (Cases.refused "read write") eq_refl eq_refl)).
    reflexivity.
Defined.
